(** * The CEL [http] library of kyverno: [pkg/cel/libs/http/http.go]

    A shallow embedding of the request executor ([Get], [Post],
    [executeRequest]), of the client factory ([Client], [NewHTTP]) and of
    the request-body helper ([buildRequestData]), followed by the
    properties of the response-normalisation contract.

    Go code runs against a mutable world: the dispatching collaborator
    performs I/O, executors live behind pointers, response bodies are
    closed.  The embedding threads an explicit [state] through a small
    state-and-panic monad, and takes the parts of the Go standard library
    and of the tracing package that the file calls as a class [GoLib]. *)

From Stdlib Require Import ZArith Ascii String.
From stdpp Require Import base option list strings gmap.

#[local] Set Warnings "-register-all".
#[local] Open Scope string_scope.
#[local] Open Scope list_scope.

(** ** Dynamically typed values

    What a Go [any] holds in this file: the values the JSON decoder
    produces ([nil], [bool], [float64], [string], [[]any],
    [map[string]any]) and the [int] status code stored by
    [executeRequest].  A [float64] is kept as its 64-bit IEEE 754
    pattern. *)
Inductive any : Type :=
| Nil
| Bool (b : bool)
| Int (n : Z)
| Float64 (bits : Z)
| Str (s : string)
| Slice (elems : list any)
| Map (entries : gmap string any).

(** Go [error] values: a library error, or [fmt.Errorf] with its format,
    its [%v] operands and the error wrapped by [%w]. *)
Inductive error : Type :=
| ErrorNew (text : string)
| Errorf (format : string) (operands : list any) (wrapped : option error).

Inductive result (A : Type) : Type :=
| Ok (a : A)
| Err (e : error).
Arguments Ok {A} a.
Arguments Err {A} e.

(** ** [net/http] data *)

Record Request : Type := mkRequest {
  Method : string;
  URL : string;
  Header : gmap string (list string);
  RequestBody : option string
}.

(** [Body] is an interface value ([io.ReadCloser]): [None] is the nil
    interface, [Some s] a stream that yields the bytes [s]. *)
Record Response : Type := mkResponse {
  StatusCode : Z;
  Body : option string
}.

(** [ClientInterface]: the one capability [Do].  A call may change the
    world; it returns Go's pair of a response pointer and an error, either
    of which may be nil. *)
Record ClientInterface (World : Type) : Type := mkClient {
  Do : Request -> World -> (option Response * option error) * World
}.
Arguments Do {World} _ _ _.
Arguments mkClient {World} _.

(** ** [crypto/tls] and [crypto/x509] data *)

Definition CertPool : Type := list string.
Definition NewCertPool : CertPool := [].

Definition VersionTLS12 : Z := 0x0303.

Record tls_Config : Type := mkConfig {
  RootCAs : CertPool;
  MinVersion : Z
}.

Record http_Transport : Type := mkTransport {
  TLSClientConfig : tls_Config
}.

(** ** [net/textproto]: canonical header keys

    [Header.Add] stores a value under [CanonicalMIMEHeaderKey] of the
    name: the first letter and every letter after a hyphen in upper case,
    the others in lower case; a name holding a byte that is not a token
    byte is left as it is. *)
Module textproto.

Definition byte (c : ascii) : Z := Z.of_N (N_of_ascii c).

Definition isLower (c : ascii) : bool :=
  (byte "a" <=? byte c)%Z && (byte c <=? byte "z")%Z.

Definition isUpper (c : ascii) : bool :=
  (byte "A" <=? byte c)%Z && (byte c <=? byte "Z")%Z.

Definition isDigit (c : ascii) : bool :=
  (byte "0" <=? byte c)%Z && (byte c <=? byte "9")%Z.

Definition toLower : Z := byte "a" - byte "A".

Definition shift (d : Z) (c : ascii) : ascii :=
  ascii_of_N (Z.to_N (byte c + d)).

Fixpoint mem (c : ascii) (s : string) : bool :=
  match s with
  | EmptyString => false
  | String d rest => if Ascii.eqb c d then true else mem c rest
  end.

Definition validHeaderFieldByte (c : ascii) : bool :=
  isLower c || isUpper c || isDigit c || mem c "!#$%&'*+-.^_`|~".

(** The first loop of [canonicalMIMEHeaderKey]: [None] when a byte is
    neither a token byte nor a space, otherwise whether a space was seen
    ([noCanon]). *)
Fixpoint keyScan (noCanon : bool) (a : string) : option bool :=
  match a with
  | EmptyString => Some noCanon
  | String c rest =>
      if validHeaderFieldByte c then keyScan noCanon rest
      else if Ascii.eqb c " " then keyScan true rest
      else None
  end.

Fixpoint canonLoop (upper : bool) (a : string) : string :=
  match a with
  | EmptyString => EmptyString
  | String c rest =>
      let c' := if upper && isLower c then shift (- toLower) c
                else if negb upper && isUpper c then shift toLower c
                else c in
      String c' (canonLoop (Ascii.eqb c' "-") rest)
  end.

Definition canonicalMIMEHeaderKey (a : string) : string :=
  match keyScan false a with
  | None => a
  | Some true => a
  | Some false => canonLoop true a
  end.

(** The quick check of [CanonicalMIMEHeaderKey]: does a byte ask for a
    change of case before any invalid byte is met? *)
Fixpoint needsCanon (upper : bool) (s : string) : bool :=
  match s with
  | EmptyString => false
  | String c rest =>
      if negb (validHeaderFieldByte c) then false
      else if upper && isLower c then true
      else if negb upper && isUpper c then true
      else needsCanon (Ascii.eqb c "-") rest
  end.

Definition CanonicalMIMEHeaderKey (s : string) : string :=
  if needsCanon true s then canonicalMIMEHeaderKey s else s.

End textproto.

(** [http.Header.Add]: append the value under the canonical key. *)
Definition Header_Add (h : gmap string (list string)) (key value : string)
  : gmap string (list string) :=
  let key := textproto.CanonicalMIMEHeaderKey key in
  <[key := default [] (h !! key) ++ [value]]> h.

Definition Request_Header_Add (req : Request) (key value : string) : Request :=
  mkRequest (Method req) (URL req) (Header_Add (Header req) key value)
            (RequestBody req).

(** ** The libraries the file calls

    [range] is the order in which a [for ... range] loop visits a map:
    Go leaves it unspecified, so it is any enumeration of the entries. *)
Class GoLib : Type := mkGoLib {
  World : Type;
  RoundTripper : Type;
  otelhttp_Option : Type;
  Filter : Type;
  (* net/url, as used by http.NewRequestWithContext *)
  url_Parse : string -> option error;
  (* encoding/json *)
  json_Decode : string -> result any;
  json_Encode : any -> result string;
  (* crypto/x509 *)
  AppendCertsFromPEM : CertPool -> string -> CertPool * bool;
  (* net/http *)
  DefaultClient : ClientInterface World;
  http_Client : RoundTripper -> ClientInterface World;
  (* pkg/tracing and otelhttp *)
  tracing_Transport : http_Transport -> otelhttp_Option -> RoundTripper;
  otelhttp_WithFilter : Filter -> otelhttp_Option;
  RequestFilterIsInSpan : Filter;
  (* map iteration *)
  range : gmap string string -> list (string * string);
  range_perm : forall m, range m ≡ₚ map_to_list m
}.

(** ** State, panics and the monad of the embedding *)

Definition loc : Type := nat.

Section http.
Context `{lib : GoLib}.

(** [contextImpl]: the executor.  Its one field holds an interface
    value, [None] being the nil interface. *)
Record contextImpl : Type := mkContextImpl {
  client : option (ClientInterface World)
}.

(** [ContextInterface] values are pointers to [contextImpl]; [None] is
    the nil interface. *)
Definition ContextInterface : Type := option loc.

(** The world the dispatchers act on, the requests handed to [Do] so far
    (oldest first), the number of response bodies closed, and the
    executors allocated so far: address [i] is the [i]-th cell. *)
Record state : Type := mkState {
  world : World;
  dispatched : list Request;
  closed : nat;
  heap : list contextImpl
}.

Inductive outcome (A : Type) : Type :=
| Return (a : A)
| Panic (reason : string).
Arguments Return {A} a.
Arguments Panic {A} reason.

Definition M (A : Type) : Type := state -> outcome A * state.

#[global] Instance M_ret : MRet M := fun A a σ => (Return a, σ).

#[global] Instance M_bind : MBind M := fun A B f m σ =>
  match m σ with
  | (Return a, σ') => f a σ'
  | (Panic reason, σ') => (Panic reason, σ')
  end.

Definition panic {A : Type} (reason : string) : M A :=
  fun σ => (Panic reason, σ).

(** [&contextImpl{...}]: a new cell at the next free address. *)
Definition alloc (c : contextImpl) : M loc := fun σ =>
  (Return (length (heap σ)),
   mkState (world σ) (dispatched σ) (closed σ) (heap σ ++ [c])).

(** [r.client] through the pointer [r]. *)
Definition load (r : loc) : M contextImpl := fun σ =>
  match heap σ !! r with
  | Some c => (Return c, σ)
  | None => (Panic "invalid memory address or nil pointer dereference", σ)
  end.

(** [client.Do(req)]: a method call on a nil interface panics; otherwise
    the request is recorded and the world moves on. *)
Definition call_Do (c : option (ClientInterface World)) (req : Request)
  : M (option Response * option error) := fun σ =>
  match c with
  | None => (Panic "invalid memory address or nil pointer dereference", σ)
  | Some cl =>
      let '(res, w) := Do cl req (world σ) in
      (Return res, mkState w (dispatched σ ++ [req]) (closed σ) (heap σ))
  end.

(** [resp.Body], reading through the response pointer. *)
Definition deref (resp : option Response) : M Response :=
  match resp with
  | Some resp => mret resp
  | None => panic "invalid memory address or nil pointer dereference"
  end.

(** [Body.Close()], what the deferred call does when it runs. *)
Definition Close : M unit := fun σ =>
  (Return tt, mkState (world σ) (dispatched σ) (S (closed σ)) (heap σ)).

(** [defer resp.Body.Close()]: the method value is evaluated at the
    [defer] statement, which panics on a nil interface; the call itself
    is what is handed back, to be run when the function returns. *)
Definition defer_Close (body : option string) : M (M unit) :=
  match body with
  | Some _ => mret Close
  | None => panic "invalid memory address or nil pointer dereference"
  end.

(** ** [http.NewRequestWithContext] with the methods the file uses

    ["GET"] and ["POST"] are valid methods and [context.TODO()] is not
    nil, so the call fails exactly when the URL does not parse; the new
    request has an empty header. *)
Definition NewRequestWithContext (method url : string) (body : option string)
  : result Request :=
  match url_Parse url with
  | Some err => Err err
  | None => Ok (mkRequest method url ∅ body)
  end.

(** ** The file itself *)

Definition NewHTTP (c : option (ClientInterface World)) : M ContextInterface :=
  let c := match c with
           | None => Some DefaultClient
           | Some _ => c
           end in
  r ← alloc (mkContextImpl c);
  mret (Some r).

Definition executeRequest (c : option (ClientInterface World)) (req : Request)
  : M (any * option error) :=
  '(resp, err) ← call_Do c req;
  match err with
  | Some err => mret (Nil, Some (Errorf "request failed: %w" [] (Some err)))
  | None =>
      resp ← deref resp;
      deferred ← defer_Close (Body resp);
      let body :=
        match Body resp with
        | Some stream =>
            match json_Decode stream with
            | Ok v => v
            | Err _ => Nil
            end
        | None => Nil
        end in
      let returned :=
        match body with
        | Map bodyMap =>
            (Map (<["statusCode" := Int (StatusCode resp)]> bodyMap), None)
        | _ =>
            (Map {[ "body" := body; "statusCode" := Int (StatusCode resp) ]},
             None)
        end in
      deferred;;
      mret returned
  end.

(** [for h, v := range headers { req.Header.Add(h, v) }] *)
Definition add_headers (req : Request) (visited : list (string * string))
  : Request :=
  foldl (fun req hv => Request_Header_Add req hv.1 hv.2) req visited.

Definition Get (r : loc) (url : string) (headers : gmap string string)
  : M (any * option error) :=
  match NewRequestWithContext "GET" url None with
  | Err err =>
      mret (Nil, Some (Errorf "failed to create request: %w" [] (Some err)))
  | Ok req =>
      let req := add_headers req (range headers) in
      this ← load r;
      executeRequest (client this) req
  end.

Definition buildRequestData (data : any) : result string :=
  match json_Encode data with
  | Err err =>
      Err (Errorf "failed to encode HTTP POST data %v: %w" [data] (Some err))
  | Ok buffer => Ok buffer
  end.

Definition Post (r : loc) (url : string) (data : any)
    (headers : gmap string string) : M (any * option error) :=
  match buildRequestData data with
  | Err err =>
      mret (Nil, Some (Errorf "failed to encode request data: %w" [] (Some err)))
  | Ok body =>
      match NewRequestWithContext "POST" url (Some body) with
      | Err err =>
          mret (Nil, Some (Errorf "failed to create request: %w" [] (Some err)))
      | Ok req =>
          let req := add_headers req (range headers) in
          this ← load r;
          executeRequest (client this) req
      end
  end.

Definition Client (r : loc) (caBundle : string)
  : M (ContextInterface * option error) :=
  if decide (caBundle = "") then mret (Some r, None)
  else
    let caCertPool := NewCertPool in
    let '(caCertPool, ok) := AppendCertsFromPEM caCertPool caBundle in
    if negb ok then
      mret (None,
            Some (Errorf "failed to parse PEM CA bundle for APICall" [] None))
    else
      let transport := mkTransport (mkConfig caCertPool VersionTLS12) in
      r' ← alloc (mkContextImpl (Some (http_Client
              (tracing_Transport transport
                 (otelhttp_WithFilter RequestFilterIsInSpan)))));
      mret (Some r', None).

(** ** Vocabulary of the properties *)

(** A call of one of the two request operations on an executor. *)
Inductive call : Type :=
| CallGet (url : string) (headers : gmap string string)
| CallPost (url : string) (data : any) (headers : gmap string string).

Definition run (r : loc) (c : call) : M (any * option error) :=
  match c with
  | CallGet url headers => Get r url headers
  | CallPost url data headers => Post r url data headers
  end.

(** The request a call has built when it reaches [executeRequest], or
    the error that stopped it before. *)
Definition request_of (c : call) : result Request :=
  match c with
  | CallGet url headers =>
      match NewRequestWithContext "GET" url None with
      | Err err => Err err
      | Ok req => Ok (add_headers req (range headers))
      end
  | CallPost url data headers =>
      match buildRequestData data with
      | Err err => Err err
      | Ok body =>
          match NewRequestWithContext "POST" url (Some body) with
          | Err err => Err err
          | Ok req => Ok (add_headers req (range headers))
          end
      end
  end.

(** In state [σ] the executor at [r] is bound to a dispatcher whose [Do]
    answers [req] with the pair [res], leaving the world [w']. *)
Definition answers (r : loc) (req : Request) (σ : state)
    (res : option Response * option error) (w' : World) : Prop :=
  exists this cl,
    heap σ !! r = Some this /\ client this = Some cl /\
    Do cl req (world σ) = (res, w').

Definition headers_of (c : call) : gmap string string :=
  match c with
  | CallGet _ headers => headers
  | CallPost _ _ headers => headers
  end.

(** The [ok] of the type assertion [body.(map[string]any)]. *)
Definition is_object (body : any) : bool :=
  match body with
  | Map _ => true
  | _ => false
  end.

(** What [executeRequest] leaves behind a completed exchange: the
    request recorded, the body closed once, the executors untouched. *)
Definition after_exchange (σ : state) (req : Request) (w' : World) : state :=
  mkState w' (dispatched σ ++ [req]) (S (closed σ)) (heap σ).

(** The values a header carries under key [k] once the pairs [visited]
    have been added in that order. *)
Definition values_under (k : string) (visited : list (string * string))
  : list string :=
  (filter (fun hv => textproto.CanonicalMIMEHeaderKey hv.1 = k) visited).*2.

(** A dispatcher that keeps the promise of [http.Client.Do]: a nil error
    comes with a response whose [Body] is not nil. *)
Definition well_behaved (cl : ClientInterface World) : Prop :=
  forall req w,
    match (Do cl req w).1 with
    | (_, Some _) => True
    | (Some resp, None) => is_Some (Body resp)
    | (None, None) => False
    end.


(** The client of the executor [Client] builds from a parsed pool. *)
Definition derived_client (pool : CertPool) : ClientInterface World :=
  http_Client
    (tracing_Transport (mkTransport (mkConfig pool VersionTLS12))
       (otelhttp_WithFilter RequestFilterIsInSpan)).

(** What a call leaves behind once [Do] has answered, before any body is
    closed: the request recorded, the world as [Do] left it. *)
Definition after_dispatch (σ : state) (req : Request) (w' : World) : state :=
  mkState w' (dispatched σ ++ [req]) (closed σ) (heap σ).

End http.

Arguments Return {A} a.
Arguments Panic {A} reason.

(** ** A test double of the collaborators

    Canned dispatchers that count the calls they serve, and the smallest
    library behaviour the examples below need: a decoder that knows a few
    bodies, an encoder that refuses non-finite numbers, a PEM reader that
    looks for the certificate marker. *)
Module double.

Definition quote : string := String (ascii_of_nat 34) EmptyString.

(** The body [{"error":"not found"}]. *)
Definition not_found_body : string :=
  "{" +:+ quote +:+ "error" +:+ quote +:+ ":" +:+ quote +:+ "not found" +:+ quote +:+ "}".

(** The body [{"statusCode":"teapot","data":true}]. *)
Definition teapot_body : string :=
  "{" +:+ quote +:+ "statusCode" +:+ quote +:+ ":" +:+ quote +:+ "teapot"
      +:+ quote +:+ "," +:+ quote +:+ "data" +:+ quote +:+ ":true}".

Definition decode (s : string) : result any :=
  if String.eqb s "null" then Ok Nil
  else if String.eqb s "true" then Ok (Bool true)
  else if String.eqb s "false" then Ok (Bool false)
  else if String.eqb s "[]" then Ok (Slice [])
  else if String.eqb s "[true,null]" then Ok (Slice [Bool true; Nil])
  else if String.eqb s "{}" then Ok (Map ∅)
  else if String.eqb s not_found_body then
    Ok (Map {[ "error" := Str "not found" ]})
  else if String.eqb s teapot_body then
    Ok (Map {[ "statusCode" := Str "teapot"; "data" := Bool true ]})
  else Err (ErrorNew "invalid character looking for beginning of value").

(** A [float64] pattern is finite unless its exponent bits are all set. *)
Definition finite (bits : Z) : bool :=
  negb (Z.land (Z.shiftr bits 52) 0x7FF =? 0x7FF)%Z.

Definition nan : Z := 0x7FF8000000000001.

Definition encode (v : any) : result string :=
  match v with
  | Nil => Ok "null"
  | Bool true => Ok "true"
  | Bool false => Ok "false"
  | Str s => Ok (quote +:+ s +:+ quote)
  | Float64 bits =>
      if finite bits then Ok "0" else Err (ErrorNew "json: unsupported value")
  | Int _ => Ok "0"
  | Slice _ => Ok "[]"
  | Map _ => Ok "{}"
  end.

Definition parse_url (url : string) : option error :=
  if String.prefix ":" url then Some (ErrorNew "missing protocol scheme")
  else None.

Definition append_certs (pool : CertPool) (pem : string)
  : CertPool * bool :=
  if String.prefix "-----BEGIN CERTIFICATE-----" pem
  then (pool ++ [pem], true)
  else (pool, false).

(** A dispatcher that always answers the same pair. *)
Definition canned (resp : option Response) (err : option error)
  : ClientInterface nat :=
  mkClient (fun _ calls => ((resp, err), S calls)).

Definition refusing : ClientInterface nat :=
  canned None (Some (ErrorNew "connection refused")).

#[local] Instance lib : GoLib := {|
  World := nat;
  RoundTripper := http_Transport;
  otelhttp_Option := unit;
  Filter := unit;
  url_Parse := parse_url;
  json_Decode := decode;
  json_Encode := encode;
  AppendCertsFromPEM := append_certs;
  DefaultClient := refusing;
  http_Client := fun _ => refusing;
  tracing_Transport := fun transport _ => transport;
  otelhttp_WithFilter := fun _ => tt;
  RequestFilterIsInSpan := tt;
  range := map_to_list;
  range_perm := fun m => reflexivity (map_to_list m)
|}.

(** A state with one executor, at address 0, bound to [c]. *)
Definition booted (c : ClientInterface nat) : state :=
  mkState 0 [] 0 [mkContextImpl (Some c)].

(** Canned answers: 418 with an object that has its own [statusCode],
    200 with an array, 500 with a page that is not JSON. *)
Definition teapot : Response := mkResponse 418 (Some teapot_body).
Definition listing : Response := mkResponse 200 (Some "[true,null]").
Definition broken : Response := mkResponse 500 (Some "<html>oops</html>").

Definition accept : gmap string string := {[ "Accept" := "application/json" ]}.

Definition lower_case : gmap string string :=
  {[ "content-type" := "application/json" ]}.

Definition get_items : call := CallGet "http://svc.local/items" accept.
Definition post_item : call :=
  CallPost "http://svc.local/items" (Str "item") accept.

Definition get_items_request : Request :=
  mkRequest "GET" "http://svc.local/items"
            {[ "Accept" := ["application/json"] ]} None.

Definition post_item_request : Request :=
  mkRequest "POST" "http://svc.local/items"
            {[ "Accept" := ["application/json"] ]}
            (Some (quote +:+ "item" +:+ quote)).

Definition get_lower : call := CallGet "http://svc.local/items" lower_case.

Definition get_lower_request : Request :=
  mkRequest "GET" "http://svc.local/items"
            {[ "Content-Type" := ["application/json"] ]} None.

(** More canned answers and calls: a response without a body, the
    teapot object with status 200, a JSON null with status 500; a URL
    that does not parse; two spellings of one header name. *)
Definition no_content : Response := mkResponse 204 None.
Definition teapot_ok : Response := mkResponse 200 (Some teapot_body).
Definition null_500 : Response := mkResponse 500 (Some "null").

Definition get_bad_url : call := CallGet ":bad" accept.

Definition two_spellings : gmap string string :=
  {[ "accept" := "text/html"; "ACCEPT" := "text/plain" ]}.

Definition two_names : gmap string string :=
  {[ "accept" := "text/html"; "x-api-key" := "k1" ]}.

Definition get_two_names : call := CallGet "http://svc.local/items" two_names.

Definition get_two_spellings : call :=
  CallGet "http://svc.local/items" two_spellings.

Definition pem : string := "-----BEGIN CERTIFICATE-----MIIB-----END CERTIFICATE-----".

End double.

(** * Properties *)

Section properties.
Context `{lib : GoLib}.

Implicit Types (r : loc) (σ : state) (c : call) (req : Request).
Implicit Types (resp : Response) (stream : string) (m : gmap string any).

(** ** Running the monad *)

Lemma bind_Return {A B} (f : A -> M B) (mx : M A) σ a σ' :
  mx σ = (Return a, σ') -> (mx ≫= f) σ = f a σ'.
Proof. intros Hrun. unfold mbind, M_bind. now rewrite Hrun. Qed.

Lemma bind_Panic {A B} (f : A -> M B) (mx : M A) σ reason σ' :
  mx σ = (Panic reason, σ') -> (mx ≫= f) σ = (Panic reason, σ').
Proof. intros Hrun. unfold mbind, M_bind. now rewrite Hrun. Qed.

Lemma load_allocated r σ this :
  heap σ !! r = Some this -> load r σ = (Return this, σ).
Proof. intros Hcell. unfold load. now rewrite Hcell. Qed.

Lemma call_Do_answer (cl : ClientInterface World) req σ res w' :
  Do cl req (world σ) = (res, w') ->
  call_Do (Some cl) req σ =
    (Return res, mkState w' (dispatched σ ++ [req]) (closed σ) (heap σ)).
Proof. intros Hdo. unfold call_Do. now rewrite Hdo. Qed.

(** A call that gets its request built is the shared routine run on
    that request with the receiver's dispatcher. *)
Lemma run_request_of r c req :
  request_of c = Ok req ->
  run r c = (this ← load r; executeRequest (client this) req).
Proof.
  destruct c as [url headers|url data headers]; simpl.
  - unfold Get. destruct (NewRequestWithContext "GET" url None); [|done].
    now intros [= <-].
  - unfold Post. destruct (buildRequestData data); [|done].
    destruct (NewRequestWithContext "POST" url (Some a)); [|done].
    now intros [= <-].
Qed.

(** The shared routine on an exchange that came back with a body: the
    decoded value, or nil, is normalised, and the body is closed. *)
Lemma executeRequest_exchange (cl : ClientInterface World) req σ resp stream w' :
  Do cl req (world σ) = ((Some resp, None), w') ->
  Body resp = Some stream ->
  executeRequest (Some cl) req σ =
    (Return
       (match match json_Decode stream with Ok v => v | Err _ => Nil end with
        | Map bodyMap =>
            (Map (<["statusCode" := Int (StatusCode resp)]> bodyMap), None)
        | body =>
            (Map {[ "body" := body; "statusCode" := Int (StatusCode resp) ]},
             None)
        end),
     after_exchange σ req w').
Proof.
  intros Hdo Hbody. unfold executeRequest.
  erewrite bind_Return by (apply call_Do_answer; exact Hdo).
  unfold deref, mbind, M_bind, mret, M_ret. simpl. rewrite Hbody. simpl.
  now destruct (json_Decode stream) as [[]|].
Qed.

Lemma run_exchange r c req σ resp stream w' :
  request_of c = Ok req ->
  answers r req σ (Some resp, None) w' ->
  Body resp = Some stream ->
  run r c σ =
    (Return
       (match match json_Decode stream with Ok v => v | Err _ => Nil end with
        | Map bodyMap =>
            (Map (<["statusCode" := Int (StatusCode resp)]> bodyMap), None)
        | body =>
            (Map {[ "body" := body; "statusCode" := Int (StatusCode resp) ]},
             None)
        end),
     after_exchange σ req w').
Proof.
  intros Hreq (this & cl & Hcell & Hclient & Hdo) Hbody.
  rewrite (run_request_of _ _ _ Hreq).
  erewrite bind_Return by (apply load_allocated; exact Hcell).
  rewrite Hclient. now apply executeRequest_exchange.
Qed.

(** ** The response value *)

(** C1. When the exchange returns a body that decodes as a JSON object,
    Get and Post return that mapping with the key [statusCode] set to the
    integer status code and no error; every other key keeps its value,
    so every key of the decoded mapping is still there. *)
Theorem object_body_merges_statusCode r c req σ resp stream m w' :
  request_of c = Ok req ->
  answers r req σ (Some resp, None) w' ->
  Body resp = Some stream ->
  json_Decode stream = Ok (Map m) ->
  exists merged,
    run r c σ = (Return (Map merged, None), after_exchange σ req w') /\
    merged = <["statusCode" := Int (StatusCode resp)]> m /\
    merged !! "statusCode" = Some (Int (StatusCode resp)) /\
    (forall k, k ≠ "statusCode" -> merged !! k = m !! k) /\
    dom m ⊆ dom merged.
Proof.
  intros Hreq Hans Hbody Hdec.
  exists (<["statusCode" := Int (StatusCode resp)]> m).
  split; [|split; [done|split; [|split]]].
  - rewrite (run_exchange _ _ _ _ _ _ _ Hreq Hans Hbody). now rewrite Hdec.
  - apply lookup_insert_eq.
  - intros k Hk. now apply lookup_insert_ne.
  - rewrite dom_insert. set_solver.
Qed.

(** C2. When the body decodes as a value that is not an object, or does
    not decode at all, Get and Post return a mapping with exactly the two
    keys [body] and [statusCode]: the decoded value (nil after a failed
    decode) and the integer status code. *)
Theorem non_object_body_is_wrapped r c req σ resp stream body w' :
  request_of c = Ok req ->
  answers r req σ (Some resp, None) w' ->
  Body resp = Some stream ->
  body = match json_Decode stream with Ok v => v | Err _ => Nil end ->
  is_object body = false ->
  exists wrapped,
    run r c σ = (Return (Map wrapped, None), after_exchange σ req w') /\
    dom wrapped = {[ "body"; "statusCode" ]} /\
    size wrapped = 2 /\
    wrapped !! "body" = Some body /\
    wrapped !! "statusCode" = Some (Int (StatusCode resp)).
Proof.
  intros Hreq Hans Hbody Hdec Hobj.
  exists {[ "body" := body; "statusCode" := Int (StatusCode resp) ]}. split.
  - rewrite (run_exchange _ _ _ _ _ _ _ Hreq Hans Hbody), <- Hdec.
    destruct body; try reflexivity; discriminate Hobj.
  - split; [|split; [|split]].
    + rewrite dom_insert_L, dom_singleton_L. done.
    + rewrite map_size_insert_None; [now rewrite map_size_singleton|].
      now apply lookup_singleton_ne.
    + apply lookup_insert_eq.
    + rewrite lookup_insert_ne by done. apply lookup_singleton_eq.
Qed.

(** C3. Whatever the status code, a body that fails to decode is not an
    error: Get and Post return the mapping of a nil [body] and the status
    code, with a nil error. *)
Theorem decode_failure_is_not_an_error r c req σ resp stream e w' :
  request_of c = Ok req ->
  answers r req σ (Some resp, None) w' ->
  Body resp = Some stream ->
  json_Decode stream = Err e ->
  run r c σ =
    (Return (Map {[ "body" := Nil; "statusCode" := Int (StatusCode resp) ]},
             None),
     after_exchange σ req w').
Proof.
  intros Hreq Hans Hbody Hdec.
  rewrite (run_exchange _ _ _ _ _ _ _ Hreq Hans Hbody). now rewrite Hdec.
Qed.

(** ** Errors *)

(** C4. When [Do] returns an error, Get and Post return a nil value
    together with an error that wraps it; no response value is built. *)
Theorem dispatch_failure_returns_error r c req σ (resp : option Response) e w' :
  request_of c = Ok req ->
  answers r req σ (resp, Some e) w' ->
  run r c σ =
    (Return (Nil, Some (Errorf "request failed: %w" [] (Some e))),
     mkState w' (dispatched σ ++ [req]) (closed σ) (heap σ)).
Proof.
  intros Hreq (this & cl & Hcell & Hclient & Hdo).
  rewrite (run_request_of _ _ _ Hreq).
  erewrite bind_Return by (apply load_allocated; exact Hcell).
  rewrite Hclient. unfold executeRequest.
  now erewrite bind_Return by (apply call_Do_answer; exact Hdo).
Qed.

(** C5. When [data] cannot be encoded as JSON, Post returns a nil value
    and the encoding error before it builds a request: the state is the
    one it started in, so nothing was handed to [Do]. *)
Theorem Post_unencodable_data r url data headers σ e :
  json_Encode data = Err e ->
  Post r url data headers σ =
    (Return (Nil,
             Some (Errorf "failed to encode request data: %w" []
                     (Some (Errorf "failed to encode HTTP POST data %v: %w"
                              [data] (Some e))))),
     σ) /\
  dispatched (Post r url data headers σ).2 = dispatched σ /\
  world (Post r url data headers σ).2 = world σ.
Proof.
  intros Henc.
  assert (Post r url data headers σ =
    (Return (Nil,
             Some (Errorf "failed to encode request data: %w" []
                     (Some (Errorf "failed to encode HTTP POST data %v: %w"
                              [data] (Some e))))),
     σ)) as Hpost.
  { unfold Post, buildRequestData. now rewrite Henc. }
  now rewrite Hpost.
Qed.

(** ** The client factory *)

(** C6. With an empty CA bundle, [Client] returns the receiver itself,
    the same pointer, with a nil error, and allocates nothing. *)
Theorem Client_empty_bundle_is_identity r σ :
  Client r "" σ = (Return (Some r, None), σ).
Proof. reflexivity. Qed.

(** C7. With a non-empty CA bundle from which no certificate parses,
    [Client] returns a nil executor and an error. *)
Theorem Client_unparsable_bundle r caBundle σ :
  caBundle ≠ "" ->
  (AppendCertsFromPEM NewCertPool caBundle).2 = false ->
  Client r caBundle σ =
    (Return (None,
             Some (Errorf "failed to parse PEM CA bundle for APICall" [] None)),
     σ).
Proof.
  intros Hne Hno. unfold Client.
  destruct (decide (caBundle = "")) as [|_]; [done|].
  destruct (AppendCertsFromPEM NewCertPool caBundle) as [pool ok].
  simpl in Hno. now subst ok.
Qed.

(** C8. With a non-empty CA bundle that parses, [Client] returns a new
    executor at an address that was free, hence other than the
    receiver's; the receiver, like every executor that existed, keeps
    its dispatcher, and the new one dispatches through the traced
    transport that trusts the parsed pool. *)
Theorem Client_parsed_bundle_is_fresh r caBundle σ this pool :
  caBundle ≠ "" ->
  AppendCertsFromPEM NewCertPool caBundle = (pool, true) ->
  heap σ !! r = Some this ->
  exists r' σ',
    Client r caBundle σ = (Return (Some r', None), σ') /\
    r' ≠ r /\
    heap σ !! r' = None /\
    heap σ' !! r = Some this /\
    (forall a old, heap σ !! a = Some old -> heap σ' !! a = Some old) /\
    heap σ' !! r' =
      Some (mkContextImpl (Some (http_Client
              (tracing_Transport (mkTransport (mkConfig pool VersionTLS12))
                 (otelhttp_WithFilter RequestFilterIsInSpan))))) /\
    world σ' = world σ /\ dispatched σ' = dispatched σ.
Proof.
  intros Hne Hok Hcell.
  eexists (length (heap σ)), _. split.
  - unfold Client. destruct (decide (caBundle = "")) as [|_]; [done|].
    rewrite Hok. reflexivity.
  - simpl. repeat split.
    + apply lookup_lt_Some in Hcell. lia.
    + now apply lookup_ge_None_2.
    + now apply lookup_app_l_Some.
    + intros a old Hold. now apply lookup_app_l_Some.
    + now rewrite lookup_app_r, Nat.sub_diag.
Qed.

(** C10. [NewHTTP] with a nil dispatcher does not fail, and the executor
    it returns is bound to the default client, not to nil. *)
Theorem NewHTTP_nil_uses_DefaultClient σ :
  exists r σ',
    NewHTTP None σ = (Return (Some r), σ') /\
    heap σ' !! r = Some (mkContextImpl (Some DefaultClient)) /\
    (forall a old, heap σ !! a = Some old -> heap σ' !! a = Some old).
Proof.
  eexists (length (heap σ)), _. split; [reflexivity|]. simpl. split.
  - now rewrite lookup_app_r, Nat.sub_diag.
  - intros a old Hold. now apply lookup_app_l_Some.
Qed.

(** ** Headers *)

Lemma Header_add_headers req (visited : list (string * string)) :
  Header (add_headers req visited) =
    foldl (fun h hv => Header_Add h hv.1 hv.2) (Header req) visited.
Proof.
  revert req. induction visited as [|hv visited IH]; intros req; [done|].
  simpl. now rewrite IH.
Qed.

Lemma values_under_cons k h v (visited : list (string * string)) :
  values_under k ((h, v) :: visited) =
    if decide (textproto.CanonicalMIMEHeaderKey h = k)
    then v :: values_under k visited
    else values_under k visited.
Proof.
  unfold values_under. rewrite filter_cons. simpl.
  now destruct (decide (textproto.CanonicalMIMEHeaderKey h = k)).
Qed.

(** One key of the header after the loop: the values it held, followed
    by the values added under it, in the order of the visit. *)
Lemma foldl_Header_Add_lookup (visited : list (string * string))
    (h : gmap string (list string)) k :
  foldl (fun h hv => Header_Add h hv.1 hv.2) h visited !! k =
    match values_under k visited with
    | [] => h !! k
    | vs => Some (default [] (h !! k) ++ vs)
    end.
Proof.
  revert h. induction visited as [|[n v] visited IH]; intros h; [done|].
  simpl. rewrite IH, values_under_cons. unfold Header_Add.
  destruct (decide (textproto.CanonicalMIMEHeaderKey n = k)) as [->|Hne].
  - rewrite lookup_insert_eq. simpl.
    destruct (values_under k visited); [done|].
    now rewrite <- app_assoc.
  - now rewrite lookup_insert_ne.
Qed.

Lemma request_of_Header c req :
  request_of c = Ok req ->
  Header req =
    foldl (fun h hv => Header_Add h hv.1 hv.2) ∅ (range (headers_of c)).
Proof.
  destruct c as [url headers|url data headers]; simpl.
  - destruct (NewRequestWithContext "GET" url None) as [built|] eqn:Hnew;
      [|done].
    intros [= <-]. rewrite Header_add_headers. f_equal.
    unfold NewRequestWithContext in Hnew.
    destruct (url_Parse url); [done|]. now injection Hnew as <-.
  - destruct (buildRequestData data) as [body|]; [|done].
    destruct (NewRequestWithContext "POST" url (Some body)) as [built|] eqn:Hnew;
      [|done].
    intros [= <-]. rewrite Header_add_headers. f_equal.
    unfold NewRequestWithContext in Hnew.
    destruct (url_Parse url); [done|]. now injection Hnew as <-.
Qed.

(** Names that are all canonical and all different: a key carries the
    one value of its name, or nothing. *)
Lemma values_under_NoDup (visited : list (string * string)) k :
  NoDup visited.*1 ->
  (forall h v, (h, v) ∈ visited -> textproto.CanonicalMIMEHeaderKey h = h) ->
  (forall v, (k, v) ∈ visited -> values_under k visited = [v]) /\
  (k ∉ visited.*1 -> values_under k visited = []).
Proof.
  induction visited as [|[h v0] visited IH]; intros Hnodup Hcanon.
  - split; [|done]. intros v Hin. now apply elem_of_nil in Hin.
  - rewrite fmap_cons in Hnodup. apply NoDup_cons in Hnodup as [Hfresh Hnodup].
    simpl in Hfresh.
    destruct IH as [IHin IHout]; [done| |].
    { intros h' v' Hin. apply (Hcanon h' v'). now right. }
    rewrite values_under_cons, (Hcanon h v0) by left.
    destruct (decide (h = k)) as [->|Hne]; split.
    + intros v Hin. apply elem_of_cons in Hin as [[= ->]|Hin].
      * now rewrite IHout.
      * destruct Hfresh. apply list_elem_of_fmap. now exists (k, v).
    + intros Hout. destruct Hout. rewrite fmap_cons. left.
    + intros v Hin. apply elem_of_cons in Hin as [[= ? ?]|Hin]; [done|].
      now apply IHin.
    + intros Hout. apply IHout. intros Hin. apply Hout.
      rewrite fmap_cons. now right.
Qed.

(** Once [Do] has answered, the shared routine has handed it the
    request, once, whatever it does with the answer. *)
Lemma executeRequest_dispatched (cl : ClientInterface World) req σ res w' :
  Do cl req (world σ) = (res, w') ->
  dispatched (executeRequest (Some cl) req σ).2 = dispatched σ ++ [req].
Proof.
  intros Hdo. unfold executeRequest.
  erewrite bind_Return by (apply call_Do_answer; exact Hdo).
  destruct res as [[resp|] [err|]]; try done.
  unfold deref, mbind, M_bind, mret, M_ret. simpl.
  now destruct (Body resp).
Qed.

(** C9, as the code has it.  The request handed to [Do] carries each
    supplied value, unmodified, under the canonical form of its name:
    a key holds exactly the values of the names that canonicalise to it,
    in the order of the visit, which is an enumeration of the mapping.
    When the supplied names are all canonical already, the request
    carries exactly these names, each with its single value. *)
Theorem headers_added_under_canonical_names r c req σ res w' :
  request_of c = Ok req ->
  answers r req σ res w' ->
  dispatched (run r c σ).2 = dispatched σ ++ [req] /\
  (forall k,
     Header req !! k =
       match values_under k (range (headers_of c)) with
       | [] => None
       | vs => Some vs
       end) /\
  (forall k,
     values_under k (range (headers_of c))
       ≡ₚ values_under k (map_to_list (headers_of c))) /\
  (forall h v,
     headers_of c !! h = Some v ->
     exists vs,
       Header req !! textproto.CanonicalMIMEHeaderKey h = Some vs /\ v ∈ vs) /\
  ((forall h, is_Some (headers_of c !! h) ->
              textproto.CanonicalMIMEHeaderKey h = h) ->
   Header req = (fun v => [v]) <$> headers_of c).
Proof.
  intros Hreq (this & cl & Hcell & Hclient & Hdo).
  assert (forall k,
     Header req !! k =
       match values_under k (range (headers_of c)) with
       | [] => None
       | vs => Some vs
       end) as Hkey.
  { intros k. rewrite (request_of_Header _ _ Hreq), foldl_Header_Add_lookup.
    now rewrite lookup_empty. }
  assert (forall h v, (h, v) ∈ range (headers_of c) <-> headers_of c !! h = Some v)
    as Hvisit.
  { intros h v. rewrite range_perm. apply elem_of_map_to_list. }
  split; [|split; [done|split; [|split]]].
  - rewrite (run_request_of _ _ _ Hreq).
    erewrite bind_Return by (apply load_allocated; exact Hcell).
    rewrite Hclient. now apply (executeRequest_dispatched _ _ _ res w').
  - intros k. unfold values_under. now rewrite range_perm.
  - intros h v Hin. rewrite Hkey.
    assert (v ∈ values_under (textproto.CanonicalMIMEHeaderKey h)
                  (range (headers_of c))) as Hv.
    { unfold values_under. apply list_elem_of_fmap. exists (h, v).
      split; [done|]. apply list_elem_of_filter. split; [done|].
      now apply Hvisit. }
    destruct (values_under _ _) as [|v' vs]; [now apply elem_of_nil in Hv|].
    now exists (v' :: vs).
  - intros Hcanon.
    apply map_eq. intros k. rewrite Hkey, lookup_fmap.
    destruct (values_under_NoDup (range (headers_of c)) k) as [Hin Hout].
    { rewrite range_perm. apply NoDup_fst_map_to_list. }
    { intros h v Hhv. apply Hcanon. exists v. now apply Hvisit. }
    destruct (headers_of c !! k) as [v|] eqn:Hk; simpl.
    + rewrite (Hin v); [done|]. now apply Hvisit.
    + rewrite Hout; [done|]. intros Hfst.
      apply list_elem_of_fmap in Hfst as ([h v] & -> & Hhv). simpl in Hk.
      apply Hvisit in Hhv. congruence.
Qed.

End properties.

(** * Further properties of the file *)

Section behaviour.
Context `{lib : GoLib}.

Implicit Types (r : loc) (σ : state) (c : call) (req : Request).
Implicit Types (resp : Response) (stream : string) (m : gmap string any).

(** ** The courses a call can take *)

(** A call whose request could not be built stops there. *)
Lemma run_request_of_Err r c σ e :
  request_of c = Err e ->
  exists format,
    run r c σ = (Return (Nil, Some (Errorf format [] (Some e))), σ) /\
    (format = "failed to create request: %w" \/
     format = "failed to encode request data: %w").
Proof.
  destruct c as [url headers|url data headers]; simpl.
  - unfold Get. destruct (NewRequestWithContext "GET" url None); [done|].
    intros [= ->]. eauto.
  - unfold Post. destruct (buildRequestData data) as [body|].
    + destruct (NewRequestWithContext "POST" url (Some body)); [done|].
      intros [= ->]. eauto.
    + intros [= ->]. eauto.
Qed.

(** The shared routine once [Do] has answered without error and the
    response and its body are there: it returns, with a nil error, a
    mapping that has the status code under [statusCode]. *)
Lemma executeRequest_returns (cl : ClientInterface World) req σ resp stream w' :
  Do cl req (world σ) = ((Some resp, None), w') ->
  Body resp = Some stream ->
  exists mp,
    executeRequest (Some cl) req σ =
      (Return (Map mp, None), after_exchange σ req w') /\
    mp !! "statusCode" = Some (Int (StatusCode resp)).
Proof.
  intros Hdo Hbody. rewrite (executeRequest_exchange _ _ _ _ _ _ Hdo Hbody).
  destruct (match json_Decode stream with Ok v => v | Err _ => Nil end);
    (eexists; split; [reflexivity|]);
    first [apply lookup_insert_eq
          |rewrite lookup_insert_ne by done; apply lookup_singleton_eq].
Qed.

(** The shared routine with a dispatcher, by the answer of [Do]: an
    error is wrapped; a nil response or a nil body is a panic; an
    exchange is normalised. *)
Lemma executeRequest_courses (cl : ClientInterface World) req σ res w' :
  Do cl req (world σ) = (res, w') ->
  (exists e, res.2 = Some e /\
     executeRequest (Some cl) req σ =
       (Return (Nil, Some (Errorf "request failed: %w" [] (Some e))),
        after_dispatch σ req w')) \/
  (res.2 = None /\ res.1 ≫= Body = None /\
     exists reason,
       executeRequest (Some cl) req σ = (Panic reason, after_dispatch σ req w')) \/
  (exists resp stream mp,
     res = (Some resp, None) /\ Body resp = Some stream /\
     executeRequest (Some cl) req σ =
       (Return (Map mp, None), after_exchange σ req w') /\
     mp !! "statusCode" = Some (Int (StatusCode resp))).
Proof.
  intros Hdo. destruct res as [[resp|] [err|]].
  - left. exists err. split; [done|]. unfold executeRequest.
    now erewrite bind_Return by (apply call_Do_answer; exact Hdo).
  - destruct (Body resp) as [stream|] eqn:Hbody.
    + right. right.
      destruct (executeRequest_returns _ _ _ _ _ _ Hdo Hbody) as (mp & ? & ?).
      by exists resp, stream, mp.
    + right. left. split; [done|]. split; [done|]. unfold executeRequest.
      erewrite bind_Return by (apply call_Do_answer; exact Hdo).
      unfold deref, defer_Close, mbind, M_bind, mret, M_ret, panic. simpl.
      rewrite Hbody. eauto.
  - left. exists err. split; [done|]. unfold executeRequest.
    now erewrite bind_Return by (apply call_Do_answer; exact Hdo).
  - right. left. split; [done|]. split; [done|]. unfold executeRequest.
    erewrite bind_Return by (apply call_Do_answer; exact Hdo).
    unfold deref, panic. simpl. eauto.
Qed.

(** A call, by what stops it or lets it through. *)
Lemma run_courses r c σ :
  (exists e format,
     request_of c = Err e /\
     run r c σ = (Return (Nil, Some (Errorf format [] (Some e))), σ)) \/
  (exists req reason,
     request_of c = Ok req /\
     (heap σ !! r ≫= client) = None /\
     run r c σ = (Panic reason, σ)) \/
  (exists req this cl res w',
     request_of c = Ok req /\
     heap σ !! r = Some this /\ client this = Some cl /\
     Do cl req (world σ) = (res, w') /\
     run r c σ = executeRequest (Some cl) req σ).
Proof.
  destruct (request_of c) as [req|e] eqn:Hreq.
  - right. rewrite (run_request_of _ _ _ Hreq).
    destruct (heap σ !! r) as [this|] eqn:Hcell.
    + erewrite bind_Return by (apply load_allocated; exact Hcell).
      destruct (client this) as [cl|] eqn:Hclient.
      * right. destruct (Do cl req (world σ)) as [res w'] eqn:Hdo.
        by exists req, this, cl, res, w'.
      * left. eexists req, _. split; [done|]. split; [done|].
        reflexivity.
    + left. eexists req, _. split; [done|]. split; [done|].
      apply bind_Panic. unfold load. by rewrite Hcell.
  - left. destruct (run_request_of_Err r c σ e Hreq) as (format & Hrun & _).
    by exists e, format.
Qed.

(** Where a call can leave the state: as it was, after the dispatch, or
    after the whole exchange. *)
Lemma run_final_state r c σ :
  (run r c σ).2 = σ \/
  exists req w',
    request_of c = Ok req /\
    (((run r c σ).2 = after_dispatch σ req w' /\
      forall v, (run r c σ).1 ≠ Return (v, None)) \/
     ((run r c σ).2 = after_exchange σ req w' /\
      exists v, (run r c σ).1 = Return (v, None))).
Proof.
  destruct (run_courses r c σ)
    as [(e & format & _ & ->)|[(req & reason & _ & _ & ->)
       |(req & this & cl & res & w' & Hreq & _ & _ & Hdo & ->)]];
    [by left|by left|].
  right. exists req, w'. split; [done|].
  destruct (executeRequest_courses cl req σ res w' Hdo)
    as [(e & _ & ->)|[(_ & _ & reason & ->)|(resp & stream & mp & _ & _ & -> & _)]].
  - left. by split.
  - left. by split.
  - right. split; [done|]. by eexists.
Qed.

(** ** What a call returns and what it leaves behind *)

(** X1. A call whose request cannot be built, be it for the data or for
    the URL, returns nil and an error that wraps the cause; it leaves the
    state as it was, so nothing is dispatched, and it does not even read
    its receiver. *)
Theorem unbuilt_request_stops_the_call r c σ e :
  request_of c = Err e ->
  exists format,
    run r c σ = (Return (Nil, Some (Errorf format [] (Some e))), σ) /\
    (format = "failed to create request: %w" \/
     format = "failed to encode request data: %w").
Proof. apply run_request_of_Err. Qed.

(** X2. Get and Post hand at most one request to [Do], and only the
    request they built: there is no retry. *)
Theorem run_dispatches_at_most_once r c σ :
  dispatched (run r c σ).2 = dispatched σ \/
  exists req, request_of c = Ok req /\
    dispatched (run r c σ).2 = dispatched σ ++ [req].
Proof.
  destruct (run_final_state r c σ)
    as [->|(req & w' & Hreq & [[-> _]|[-> _]])]; [by left|right..];
    by exists req.
Qed.

(** X3. A call that returns gives either a nil value with an error, or
    a mapping that has an integer under [statusCode] with a nil error;
    never a value together with an error, never neither. *)
Theorem run_returns_value_or_error r c σ v e σ' :
  run r c σ = (Return (v, e), σ') ->
  (v = Nil /\ is_Some e) \/
  (e = None /\
   exists mp status, v = Map mp /\ mp !! "statusCode" = Some (Int status)).
Proof.
  destruct (run_courses r c σ)
    as [(err & format & _ & ->)|[(req & reason & _ & _ & ->)
       |(req & this & cl & res & w' & _ & _ & _ & Hdo & ->)]].
  - intros [= <- <- <-]. left. eauto.
  - done.
  - destruct (executeRequest_courses cl req σ res w' Hdo)
      as [(err & _ & ->)|[(_ & _ & reason & ->)
         |(resp & stream & mp & _ & _ & -> & Hstatus)]].
    + intros [= <- <- <-]. left. eauto.
    + done.
    + intros [= <- <- <-]. right. eauto.
Qed.


(** X5. Get and Post never create, replace or change an executor. *)
Theorem run_keeps_executors r c σ : heap (run r c σ).2 = heap σ.
Proof.
  by destruct (run_final_state r c σ)
    as [->|(req & w' & _ & [[-> _]|[-> _]])].
Qed.

(** X6. When [Do] returns a nil error with a nil response, or with a
    response whose [Body] is nil, the call panics after the request was
    dispatched: the deferred [Close] is set up before the test
    [resp.Body != nil]. *)
Theorem missing_body_panics r c req σ (resp : option Response) w' :
  request_of c = Ok req ->
  answers r req σ (resp, None) w' ->
  resp ≫= Body = None ->
  exists reason, run r c σ = (Panic reason, after_dispatch σ req w').
Proof.
  intros Hreq (this & cl & Hcell & Hclient & Hdo) Hnil.
  rewrite (run_request_of _ _ _ Hreq).
  erewrite bind_Return by (apply load_allocated; exact Hcell).
  rewrite Hclient.
  destruct (executeRequest_courses cl req σ _ w' Hdo)
    as [(err & [=] & _)|[(_ & _ & reason & ->)
       |(resp' & stream & mp & [= ->] & Hbody & _)]].
  - by exists reason.
  - simpl in Hnil. congruence.
Qed.

(** X7. An executor bound to a dispatcher that keeps the promise of
    [http.Client.Do] never panics: every call on it returns. *)
Theorem well_behaved_dispatcher_never_panics r c σ this cl :
  heap σ !! r = Some this ->
  client this = Some cl ->
  well_behaved cl ->
  exists v e σ', run r c σ = (Return (v, e), σ').
Proof.
  intros Hcell Hclient Hgood.
  destruct (run_courses r c σ)
    as [(err & format & _ & ->)|[(req & reason & _ & Hnone & _)
       |(req & this' & cl' & res & w' & _ & Hcell' & Hclient' & Hdo & ->)]].
  - by eexists _, _, _.
  - rewrite Hcell in Hnone. simpl in Hnone. congruence.
  - assert (cl' = cl) as -> by congruence.
    destruct (executeRequest_courses cl req σ res w' Hdo)
      as [(err & _ & ->)|[(Herr & Hnil & _)
         |(resp & stream & mp & _ & _ & -> & _)]].
    + by eexists _, _, _.
    + specialize (Hgood req (world σ)). rewrite Hdo in Hgood. simpl in Hgood.
      destruct res as [[resp|] err]; simpl in *; subst err.
      * rewrite Hnil in Hgood. by destruct Hgood.
      * done.
    + by eexists _, _, _.
Qed.

(** ** The response value and the status code *)

(** X8. The status code decides nothing but the entry [statusCode]: two
    exchanges that return the same body give response values that agree
    on every other key, whatever their status codes. *)
Theorem status_only_sets_statusCode
    r1 r2 c1 c2 req1 req2 σ1 σ2 resp1 resp2 stream w1 w2 :
  request_of c1 = Ok req1 ->
  request_of c2 = Ok req2 ->
  answers r1 req1 σ1 (Some resp1, None) w1 ->
  answers r2 req2 σ2 (Some resp2, None) w2 ->
  Body resp1 = Some stream ->
  Body resp2 = Some stream ->
  exists mp1 mp2,
    (run r1 c1 σ1).1 = Return (Map mp1, None) /\
    (run r2 c2 σ2).1 = Return (Map mp2, None) /\
    mp1 !! "statusCode" = Some (Int (StatusCode resp1)) /\
    mp2 !! "statusCode" = Some (Int (StatusCode resp2)) /\
    delete "statusCode" mp1 = delete "statusCode" mp2.
Proof.
  intros Hreq1 Hreq2 Hans1 Hans2 Hbody1 Hbody2.
  rewrite (run_exchange _ _ _ _ _ _ _ Hreq1 Hans1 Hbody1).
  rewrite (run_exchange _ _ _ _ _ _ _ Hreq2 Hans2 Hbody2).
  destruct (match json_Decode stream with Ok v => v | Err _ => Nil end);
    (eexists _, _; split; [reflexivity|]; split; [reflexivity|]);
    first
      [ split; [apply lookup_insert_eq|]; split; [apply lookup_insert_eq|];
        by rewrite !delete_insert_eq
      | split; [rewrite lookup_insert_ne by done; apply lookup_singleton_eq|];
        split; [rewrite lookup_insert_ne by done; apply lookup_singleton_eq|];
        by rewrite !delete_insert_ne, !delete_singleton_eq by done ].
Qed.

(** X9. A body that does not decode is reported exactly as the JSON
    body [null] with the same status code: the response value does not
    tell the two apart. *)
Theorem decode_failure_reads_as_null
    r1 r2 c1 c2 req1 req2 σ1 σ2 resp1 resp2 stream1 stream2 e w1 w2 :
  request_of c1 = Ok req1 ->
  request_of c2 = Ok req2 ->
  answers r1 req1 σ1 (Some resp1, None) w1 ->
  answers r2 req2 σ2 (Some resp2, None) w2 ->
  Body resp1 = Some stream1 ->
  Body resp2 = Some stream2 ->
  json_Decode stream1 = Err e ->
  json_Decode stream2 = Ok Nil ->
  StatusCode resp1 = StatusCode resp2 ->
  (run r1 c1 σ1).1 = (run r2 c2 σ2).1.
Proof.
  intros Hreq1 Hreq2 Hans1 Hans2 Hbody1 Hbody2 Hdec1 Hdec2 Hstatus.
  rewrite (run_exchange _ _ _ _ _ _ _ Hreq1 Hans1 Hbody1).
  rewrite (run_exchange _ _ _ _ _ _ _ Hreq2 Hans2 Hbody2).
  by rewrite Hdec1, Hdec2, Hstatus.
Qed.

(** ** The request that is dispatched *)




(** X11. Two supplied names with one canonical form do not replace one
    another: the request carries both values under that one key, in the
    order in which the loop happened to visit them. *)
Theorem colliding_names_share_a_key c req h1 h2 v1 v2 :
  request_of c = Ok req ->
  headers_of c = {[ h1 := v1; h2 := v2 ]} ->
  h1 ≠ h2 ->
  textproto.CanonicalMIMEHeaderKey h1 = textproto.CanonicalMIMEHeaderKey h2 ->
  Header req = {[ textproto.CanonicalMIMEHeaderKey h1 := [v1; v2] ]} \/
  Header req = {[ textproto.CanonicalMIMEHeaderKey h1 := [v2; v1] ]}.
Proof.
  intros Hreq Hheaders Hne Hcanon.
  rewrite (request_of_Header _ _ Hreq), Hheaders.
  assert ([(h1, v1); (h2, v2)] ≡ₚ range {[ h1 := v1; h2 := v2 ]}) as Hvisit.
  { rewrite range_perm, map_to_list_insert, map_to_list_singleton; [done|].
    by apply lookup_singleton_ne. }
  apply Permutation_length_2_inv in Hvisit as [-> | ->]; simpl;
    unfold Header_Add; simpl; rewrite <- ?Hcanon, lookup_empty; simpl;
    rewrite insert_empty, lookup_singleton_eq; simpl;
    rewrite <- insert_empty, insert_insert_eq, insert_empty; auto.
Qed.

(** ** The executor keeps nothing between calls *)



Lemma executeRequest_frame (o : option (ClientInterface World)) req σ1 σ2 :
  world σ1 = world σ2 ->
  dispatched σ1 = dispatched σ2 ->
  closed σ1 = closed σ2 ->
  (executeRequest o req σ1).1 = (executeRequest o req σ2).1 /\
  world (executeRequest o req σ1).2 = world (executeRequest o req σ2).2 /\
  dispatched (executeRequest o req σ1).2
    = dispatched (executeRequest o req σ2).2 /\
  closed (executeRequest o req σ1).2 = closed (executeRequest o req σ2).2.
Proof.
  destruct σ1 as [w1 d1 n1 h1], σ2 as [w2 d2 n2 h2]. simpl.
  intros -> -> ->.
  unfold executeRequest, call_Do, mbind, M_bind. destruct o as [cl|]; [|done].
  simpl. destruct (Do cl req w2) as [[[resp|] [err|]] w']; simpl; try done.
  unfold defer_Close. by destruct (Body resp).
Qed.

(** A call sees the executors only through the cell of its receiver. *)
Lemma run_frame r c σ1 σ2 :
  world σ1 = world σ2 ->
  dispatched σ1 = dispatched σ2 ->
  closed σ1 = closed σ2 ->
  heap σ1 !! r = heap σ2 !! r ->
  (run r c σ1).1 = (run r c σ2).1 /\
  world (run r c σ1).2 = world (run r c σ2).2 /\
  dispatched (run r c σ1).2 = dispatched (run r c σ2).2 /\
  closed (run r c σ1).2 = closed (run r c σ2).2.
Proof.
  intros Hw Hd Hn Hcell.
  assert (forall req,
    let call := this ← load r; executeRequest (client this) req in
    (call σ1).1 = (call σ2).1 /\
    world (call σ1).2 = world (call σ2).2 /\
    dispatched (call σ1).2 = dispatched (call σ2).2 /\
    closed (call σ1).2 = closed (call σ2).2) as Hcall.
  { intros req. simpl. unfold load, mbind, M_bind. rewrite Hcell.
    destruct (heap σ2 !! r) as [this|]; [|done].
    by apply executeRequest_frame. }
  destruct c as [url headers|url data headers]; simpl.
  - unfold Get. destruct (NewRequestWithContext "GET" url None); [|done].
    by apply Hcall.
  - unfold Post. destruct (buildRequestData data) as [body|]; [|done].
    destruct (NewRequestWithContext "POST" url (Some body)); [|done].
    by apply Hcall.
Qed.

(** ** The client factory and the constructor *)

(** [Client], by its three ways out. *)
Lemma Client_courses r caBundle σ :
  (caBundle = "" /\ Client r caBundle σ = (Return (Some r, None), σ)) \/
  (caBundle ≠ "" /\ (AppendCertsFromPEM NewCertPool caBundle).2 = false /\
   exists e, Client r caBundle σ = (Return (None, Some e), σ)) \/
  (caBundle ≠ "" /\
   exists pool,
     AppendCertsFromPEM NewCertPool caBundle = (pool, true) /\
     Client r caBundle σ =
       (Return (Some (length (heap σ)), None),
        mkState (world σ) (dispatched σ) (closed σ)
          (heap σ ++ [mkContextImpl (Some (derived_client pool))]))).
Proof.
  unfold Client. destruct (decide (caBundle = "")) as [->|Hne]; [by left|].
  right. destruct (AppendCertsFromPEM NewCertPool caBundle) as [pool [|]].
  - right. split; [done|]. by exists pool.
  - left. split; [done|]. split; [done|]. by eexists.
Qed.

(** X13. [Client] never panics, never dispatches a request and never
    closes a body; it only adds executors, and it returns either an
    executor with a nil error or a nil executor with an error, the
    latter without having added anything. *)
Theorem Client_only_allocates r caBundle σ :
  exists out σ',
    Client r caBundle σ = (Return out, σ') /\
    world σ' = world σ /\ dispatched σ' = dispatched σ /\
    closed σ' = closed σ /\ heap σ `prefix_of` heap σ' /\
    ((exists r', out = (Some r', None)) \/
     (exists e, out = (None, Some e) /\ σ' = σ)).
Proof.
  destruct (Client_courses r caBundle σ)
    as [[_ ->]|[(_ & _ & e & ->)|(_ & pool & _ & ->)]];
    eexists _, _; (split; [reflexivity|]); simpl;
    repeat split; eauto using prefix_app_r.
Qed.

(** X14. Deriving a client, from any executor and with any bundle,
    changes nothing for the calls on an existing executor: they return
    what they would have returned and act on the world in the same
    way. *)
Theorem Client_leaves_calls_unchanged r0 caBundle r c σ this :
  heap σ !! r = Some this ->
  (run r c (Client r0 caBundle σ).2).1 = (run r c σ).1 /\
  world (run r c (Client r0 caBundle σ).2).2 = world (run r c σ).2 /\
  dispatched (run r c (Client r0 caBundle σ).2).2 = dispatched (run r c σ).2 /\
  closed (run r c (Client r0 caBundle σ).2).2 = closed (run r c σ).2.
Proof.
  intros Hcell. apply run_frame;
    destruct (Client_courses r0 caBundle σ)
      as [[_ ->]|[(_ & _ & e & ->)|(_ & pool & _ & ->)]]; simpl; try done.
  rewrite Hcell. by apply lookup_app_l_Some.
Qed.

(** X15. [NewHTTP] never fails.  It puts the executor at an address that
    was free and keeps the others; the executor is bound to the
    dispatcher it was given, or to the default client when given nil, so
    a request is answered by that dispatcher. *)
Theorem NewHTTP_binds_the_dispatcher
    (given : option (ClientInterface World)) σ req res w' :
  Do (default DefaultClient given) req (world σ) = (res, w') ->
  exists r σ',
    NewHTTP given σ = (Return (Some r), σ') /\
    heap σ !! r = None /\
    (forall a old, heap σ !! a = Some old -> heap σ' !! a = Some old) /\
    answers r req σ' res w'.
Proof.
  intros Hdo. eexists (length (heap σ)), _. split; [reflexivity|].
  split; [by apply lookup_ge_None_2|]. split.
  - intros a old Hold. simpl. by apply lookup_app_l_Some.
  - eexists _, (default DefaultClient given). simpl. split.
    + by rewrite lookup_app_r, Nat.sub_diag.
    + split; [by destruct given|done].
Qed.

(** ** Names that do not collide *)

Lemma values_under_none k (visited : list (string * string)) :
  (forall h v, (h, v) ∈ visited -> textproto.CanonicalMIMEHeaderKey h ≠ k) ->
  values_under k visited = [].
Proof.
  induction visited as [|[h v] visited IH]; intros Hnone; [done|].
  rewrite values_under_cons.
  destruct (decide (textproto.CanonicalMIMEHeaderKey h = k)) as [Heq|_].
  - destruct (Hnone h v); [left|done].
  - apply IH. intros h' v' Hin. apply (Hnone h' v'). by right.
Qed.

Lemma values_under_single (visited : list (string * string)) h v :
  NoDup visited.*1 ->
  (forall h1 v1 h2 v2,
     (h1, v1) ∈ visited -> (h2, v2) ∈ visited ->
     textproto.CanonicalMIMEHeaderKey h1 = textproto.CanonicalMIMEHeaderKey h2 ->
     h1 = h2) ->
  (h, v) ∈ visited ->
  values_under (textproto.CanonicalMIMEHeaderKey h) visited = [v].
Proof.
  induction visited as [|[h0 v0] visited IH]; intros Hnodup Hinj Hin.
  - by apply elem_of_nil in Hin.
  - rewrite fmap_cons in Hnodup. apply NoDup_cons in Hnodup as [Hfresh Hnodup].
    simpl in Hfresh. rewrite values_under_cons.
    apply elem_of_cons in Hin as [[= -> ->]|Hin].
    + rewrite decide_True by done. f_equal. apply values_under_none.
      intros h' v' Hin' Heq. destruct Hfresh.
      assert (h' = h0) as <-.
      { apply (Hinj h' v' h0 v0); [by right|left|done]. }
      apply list_elem_of_fmap. by exists (h', v').
    + rewrite decide_False.
      * apply IH; [done| |done]. intros h1 v1 h2 v2 Hin1 Hin2.
        apply (Hinj h1 v1 h2 v2); by right.
      * intros Heq. destruct Hfresh.
        assert (h0 = h) as ->.
        { apply (Hinj h0 v0 h v); [left|by right|done]. }
        apply list_elem_of_fmap. by exists (h, v).
Qed.

(** X16. When no two supplied names share a canonical form, the request
    carries each supplied value alone under the canonical form of its
    name, and nothing under any other key, whatever the order in which
    the loop visits the mapping. *)
Theorem distinct_canonical_names_single_values c req :
  request_of c = Ok req ->
  (forall h1 h2,
     is_Some (headers_of c !! h1) -> is_Some (headers_of c !! h2) ->
     textproto.CanonicalMIMEHeaderKey h1 = textproto.CanonicalMIMEHeaderKey h2 ->
     h1 = h2) ->
  (forall h v,
     headers_of c !! h = Some v ->
     Header req !! textproto.CanonicalMIMEHeaderKey h = Some [v]) /\
  (forall k,
     (forall h, is_Some (headers_of c !! h) ->
                textproto.CanonicalMIMEHeaderKey h ≠ k) ->
     Header req !! k = None).
Proof.
  intros Hreq Hinj.
  assert (forall h v, (h, v) ∈ range (headers_of c) <-> headers_of c !! h = Some v)
    as Hvisit.
  { intros h v. rewrite range_perm. apply elem_of_map_to_list. }
  split.
  - intros h v Hin.
    rewrite (request_of_Header _ _ Hreq), foldl_Header_Add_lookup, lookup_empty.
    rewrite (values_under_single _ h v); [done| | |by apply Hvisit].
    + rewrite range_perm. apply NoDup_fst_map_to_list.
    + intros h1 v1 h2 v2 Hin1 Hin2. apply Hinj; eexists; by apply Hvisit.
  - intros k Hnone.
    rewrite (request_of_Header _ _ Hreq), foldl_Header_Add_lookup, lookup_empty.
    rewrite values_under_none; [done|].
    intros h v Hin. apply Hnone. exists v. by apply Hvisit.
Qed.

End behaviour.

(** ** The properties on the test double *)

#[local] Existing Instance double.lib.

Example CanonicalMIMEHeaderKey_lower :
  textproto.CanonicalMIMEHeaderKey "x-api-key" = "X-Api-Key".
Proof. reflexivity. Qed.

Example CanonicalMIMEHeaderKey_canonical :
  textproto.CanonicalMIMEHeaderKey "Content-Type" = "Content-Type".
Proof. reflexivity. Qed.

Example CanonicalMIMEHeaderKey_not_a_token :
  textproto.CanonicalMIMEHeaderKey "my header" = "my header".
Proof. reflexivity. Qed.

(** A 418 whose object already has a [statusCode]: the key is
    overwritten with the integer, [data] is kept. *)
Lemma object_body_merges_statusCode_witness :
  exists merged,
    run 0 double.get_items (double.booted (double.canned (Some double.teapot) None)) =
      (Return (Map merged, None),
       after_exchange (double.booted (double.canned (Some double.teapot) None))
         double.get_items_request 1) /\
    merged = <["statusCode" := Int 418]>
               {[ "statusCode" := Str "teapot"; "data" := Bool true ]} /\
    merged !! "statusCode" = Some (Int 418) /\
    (forall k, k ≠ "statusCode" ->
       merged !! k =
         ({[ "statusCode" := Str "teapot"; "data" := Bool true ]}
            : gmap string any) !! k) /\
    dom ({[ "statusCode" := Str "teapot"; "data" := Bool true ]}
           : gmap string any) ⊆ dom merged.
Proof.
  apply (object_body_merges_statusCode (lib := double.lib) 0 double.get_items
           double.get_items_request
           (double.booted (double.canned (Some double.teapot) None))
           double.teapot double.teapot_body
           {[ "statusCode" := Str "teapot"; "data" := Bool true ]} 1).
  - reflexivity.
  - do 2 eexists. split; [reflexivity|]. split; reflexivity.
  - reflexivity.
  - reflexivity.
Defined.

(** A 200 with an array: the array goes under [body]. *)
Lemma non_object_body_is_wrapped_witness :
  exists wrapped,
    run 0 double.post_item (double.booted (double.canned (Some double.listing) None)) =
      (Return (Map wrapped, None),
       after_exchange (double.booted (double.canned (Some double.listing) None))
         double.post_item_request 1) /\
    dom wrapped = {[ "body"; "statusCode" ]} /\
    size wrapped = 2 /\
    wrapped !! "body" = Some (Slice [Bool true; Nil]) /\
    wrapped !! "statusCode" = Some (Int 200).
Proof.
  apply (non_object_body_is_wrapped (lib := double.lib) 0 double.post_item
           double.post_item_request
           (double.booted (double.canned (Some double.listing) None))
           double.listing "[true,null]" (Slice [Bool true; Nil]) 1).
  - reflexivity.
  - do 2 eexists. split; [reflexivity|]. split; reflexivity.
  - reflexivity.
  - reflexivity.
  - reflexivity.
Defined.

(** A 500 with a page that is not JSON: nil body, status code, no error. *)
Lemma decode_failure_is_not_an_error_witness :
  run 0 double.get_items (double.booted (double.canned (Some double.broken) None)) =
    (Return (Map {[ "body" := Nil; "statusCode" := Int 500 ]}, None),
     after_exchange (double.booted (double.canned (Some double.broken) None))
       double.get_items_request 1).
Proof.
  apply (decode_failure_is_not_an_error (lib := double.lib) 0 double.get_items
           double.get_items_request
           (double.booted (double.canned (Some double.broken) None))
           double.broken "<html>oops</html>"
           (ErrorNew "invalid character looking for beginning of value") 1).
  - reflexivity.
  - do 2 eexists. split; [reflexivity|]. split; reflexivity.
  - reflexivity.
  - reflexivity.
Defined.

(** A refused connection. *)
Lemma dispatch_failure_returns_error_witness :
  run 0 double.post_item (double.booted double.refusing) =
    (Return (Nil, Some (Errorf "request failed: %w" []
                          (Some (ErrorNew "connection refused")))),
     mkState 1 [double.post_item_request] 0
       [mkContextImpl (Some double.refusing)]).
Proof.
  apply (dispatch_failure_returns_error (lib := double.lib) 0 double.post_item
           double.post_item_request (double.booted double.refusing)
           None (ErrorNew "connection refused") 1).
  - reflexivity.
  - do 2 eexists. split; [reflexivity|]. split; reflexivity.
Defined.

(** Posting a NaN. *)
Lemma Post_unencodable_data_witness :
  Post 0 "http://svc.local/items" (Float64 double.nan) double.accept
       (double.booted (double.canned (Some double.listing) None)) =
    (Return (Nil,
             Some (Errorf "failed to encode request data: %w" []
                     (Some (Errorf "failed to encode HTTP POST data %v: %w"
                              [Float64 double.nan]
                              (Some (ErrorNew "json: unsupported value")))))),
     double.booted (double.canned (Some double.listing) None)) /\
  dispatched (Post 0 "http://svc.local/items" (Float64 double.nan) double.accept
                (double.booted (double.canned (Some double.listing) None))).2 = [] /\
  world (Post 0 "http://svc.local/items" (Float64 double.nan) double.accept
           (double.booted (double.canned (Some double.listing) None))).2 = 0.
Proof.
  apply (Post_unencodable_data (lib := double.lib) 0 "http://svc.local/items"
           (Float64 double.nan) double.accept
           (double.booted (double.canned (Some double.listing) None))
           (ErrorNew "json: unsupported value")).
  reflexivity.
Defined.

(** A bundle that is no PEM. *)
Lemma Client_unparsable_bundle_witness :
  Client 0 "not a certificate" (double.booted double.refusing) =
    (Return (None,
             Some (Errorf "failed to parse PEM CA bundle for APICall" [] None)),
     double.booted double.refusing).
Proof.
  apply (Client_unparsable_bundle (lib := double.lib) 0 "not a certificate"
           (double.booted double.refusing)).
  - discriminate.
  - reflexivity.
Defined.

(** A bundle with a certificate: the new executor sits at address 1. *)
Lemma Client_parsed_bundle_is_fresh_witness :
  exists r' σ',
    Client 0 double.pem (double.booted double.refusing) =
      (Return (Some r', None), σ') /\
    r' ≠ 0 /\
    heap (double.booted double.refusing) !! r' = None /\
    heap σ' !! 0 = Some (mkContextImpl (Some double.refusing)) /\
    (forall a old,
       heap (double.booted double.refusing) !! a = Some old ->
       heap σ' !! a = Some old) /\
    heap σ' !! r' =
      Some (mkContextImpl (Some (http_Client
              (tracing_Transport
                 (mkTransport (mkConfig [double.pem] VersionTLS12))
                 (otelhttp_WithFilter RequestFilterIsInSpan))))) /\
    world σ' = 0 /\ dispatched σ' = [].
Proof.
  apply (Client_parsed_bundle_is_fresh (lib := double.lib) 0 double.pem
           (double.booted double.refusing)
           (@mkContextImpl double.lib (Some double.refusing)) [double.pem]).
  - discriminate.
  - reflexivity.
  - reflexivity.
Defined.

(** C9 as stated fails: a lower-case name does not reach the dispatcher
    as supplied.  The request of a Get with the header
    [content-type: application/json] carries [Content-Type] and has
    nothing under [content-type]. *)
Lemma lower_case_header_name_is_rewritten :
  exists req,
    dispatched
      (Get 0 "http://svc.local/items" double.lower_case
         (double.booted (double.canned (Some double.listing) None))).2 = [req] /\
    Header req = {[ "Content-Type" := ["application/json"] ]} /\
    Header req !! "content-type" = None /\
    Header req ≠ (fun v => [v]) <$> double.lower_case.
Proof.
  eexists. split; [reflexivity|]. split; [reflexivity|]. split; [reflexivity|].
  intros Heq. apply (f_equal (lookup "content-type")) in Heq.
  vm_compute in Heq. discriminate Heq.
Defined.

(** The same Get under the amended property: the value sits under the
    canonical name. *)
Lemma headers_added_under_canonical_names_witness :
  dispatched
    (run 0 double.get_lower
       (double.booted (double.canned (Some double.listing) None))).2 =
    dispatched (double.booted (double.canned (Some double.listing) None))
      ++ [double.get_lower_request] /\
  (forall k,
     Header double.get_lower_request !! k =
       match values_under k (range (headers_of double.get_lower)) with
       | [] => None
       | vs => Some vs
       end) /\
  (forall k,
     values_under k (range (headers_of double.get_lower))
       ≡ₚ values_under k (map_to_list (headers_of double.get_lower))) /\
  (forall h v,
     headers_of double.get_lower !! h = Some v ->
     exists vs,
       Header double.get_lower_request !! textproto.CanonicalMIMEHeaderKey h
         = Some vs /\ v ∈ vs) /\
  ((forall h, is_Some (headers_of double.get_lower !! h) ->
              textproto.CanonicalMIMEHeaderKey h = h) ->
   Header double.get_lower_request =
     (fun v => [v]) <$> headers_of double.get_lower).
Proof.
  apply (headers_added_under_canonical_names (lib := double.lib) 0
           double.get_lower double.get_lower_request
           (double.booted (double.canned (Some double.listing) None))
           (Some double.listing, None) 1).
  - reflexivity.
  - do 2 eexists. split; [reflexivity|]. split; reflexivity.
Defined.

(** ** The further properties on the test double *)

(** A Get of a URL that does not parse. *)
Lemma unbuilt_request_stops_the_call_witness :
  exists format,
    run 7 double.get_bad_url (double.booted double.refusing) =
      (Return (Nil, Some (Errorf format []
                            (Some (ErrorNew "missing protocol scheme")))),
       double.booted double.refusing) /\
    (format = "failed to create request: %w" \/
     format = "failed to encode request data: %w").
Proof.
  apply (unbuilt_request_stops_the_call (lib := double.lib) 7
           double.get_bad_url (double.booted double.refusing)
           (ErrorNew "missing protocol scheme")).
  reflexivity.
Defined.

(** The 200 with an array, as a call that returns. *)
Lemma run_returns_value_or_error_witness :
  (Map {[ "body" := Slice [Bool true; Nil]; "statusCode" := Int 200 ]} = Nil /\
   is_Some (@None error)) \/
  (@None error = None /\
   exists mp status,
     Map {[ "body" := Slice [Bool true; Nil]; "statusCode" := Int 200 ]} = Map mp /\
     mp !! "statusCode" = Some (Int status)).
Proof.
  apply (run_returns_value_or_error (lib := double.lib) 0 double.get_items
           (double.booted (double.canned (Some double.listing) None))
           (Map {[ "body" := Slice [Bool true; Nil]; "statusCode" := Int 200 ]})
           None
           (after_exchange
              (double.booted (double.canned (Some double.listing) None))
              double.get_items_request 1)).
  reflexivity.
Defined.

(** A 204 whose [Body] is nil. *)
Lemma missing_body_panics_witness :
  exists reason,
    run 0 double.get_items
        (double.booted (double.canned (Some double.no_content) None)) =
      (Panic reason,
       after_dispatch
         (double.booted (double.canned (Some double.no_content) None))
         double.get_items_request 1).
Proof.
  apply (missing_body_panics (lib := double.lib) 0 double.get_items
           double.get_items_request
           (double.booted (double.canned (Some double.no_content) None))
           (Some double.no_content) 1).
  - reflexivity.
  - do 2 eexists. split; [reflexivity|]. split; reflexivity.
  - reflexivity.
Defined.

(** The dispatcher that always answers the array keeps the promise. *)
Lemma well_behaved_dispatcher_never_panics_witness :
  exists v e σ',
    run 0 double.post_item
        (double.booted (double.canned (Some double.listing) None)) =
      (Return (v, e), σ').
Proof.
  apply (well_behaved_dispatcher_never_panics (lib := double.lib) 0
           double.post_item
           (double.booted (double.canned (Some double.listing) None))
           (@mkContextImpl double.lib
              (Some (double.canned (Some double.listing) None)))
           (double.canned (Some double.listing) None)).
  - reflexivity.
  - reflexivity.
  - intros req w. simpl. eexists. reflexivity.
Defined.

(** The teapot object, once with 418 and once with 200. *)
Lemma status_only_sets_statusCode_witness :
  exists mp1 mp2,
    (run 0 double.get_items
         (double.booted (double.canned (Some double.teapot) None))).1 =
      Return (Map mp1, None) /\
    (run 0 double.post_item
         (double.booted (double.canned (Some double.teapot_ok) None))).1 =
      Return (Map mp2, None) /\
    mp1 !! "statusCode" = Some (Int 418) /\
    mp2 !! "statusCode" = Some (Int 200) /\
    delete "statusCode" mp1 = delete "statusCode" mp2.
Proof.
  apply (status_only_sets_statusCode (lib := double.lib) 0 0
           double.get_items double.post_item
           double.get_items_request double.post_item_request
           (double.booted (double.canned (Some double.teapot) None))
           (double.booted (double.canned (Some double.teapot_ok) None))
           double.teapot double.teapot_ok double.teapot_body 1 1).
  - reflexivity.
  - reflexivity.
  - do 2 eexists. split; [reflexivity|]. split; reflexivity.
  - do 2 eexists. split; [reflexivity|]. split; reflexivity.
  - reflexivity.
  - reflexivity.
Defined.

(** A page that is not JSON and the body [null], both with 500. *)
Lemma decode_failure_reads_as_null_witness :
  (run 0 double.get_items
       (double.booted (double.canned (Some double.broken) None))).1 =
  (run 0 double.get_items
       (double.booted (double.canned (Some double.null_500) None))).1.
Proof.
  apply (decode_failure_reads_as_null (lib := double.lib) 0 0
           double.get_items double.get_items
           double.get_items_request double.get_items_request
           (double.booted (double.canned (Some double.broken) None))
           (double.booted (double.canned (Some double.null_500) None))
           double.broken double.null_500 "<html>oops</html>" "null"
           (ErrorNew "invalid character looking for beginning of value") 1 1).
  - reflexivity.
  - reflexivity.
  - do 2 eexists. split; [reflexivity|]. split; reflexivity.
  - do 2 eexists. split; [reflexivity|]. split; reflexivity.
  - reflexivity.
  - reflexivity.
  - reflexivity.
  - reflexivity.
  - reflexivity.
Defined.


(** [accept] and [ACCEPT] in one mapping. *)
Lemma colliding_names_share_a_key_witness :
  Header (add_headers (mkRequest "GET" "http://svc.local/items" ∅ None)
            (map_to_list double.two_spellings)) =
    {[ textproto.CanonicalMIMEHeaderKey "accept" := ["text/html"; "text/plain"] ]} \/
  Header (add_headers (mkRequest "GET" "http://svc.local/items" ∅ None)
            (map_to_list double.two_spellings)) =
    {[ textproto.CanonicalMIMEHeaderKey "accept" := ["text/plain"; "text/html"] ]}.
Proof.
  apply (colliding_names_share_a_key (lib := double.lib)
           double.get_two_spellings
           (add_headers (mkRequest "GET" "http://svc.local/items" ∅ None)
              (map_to_list double.two_spellings))
           "accept" "ACCEPT" "text/html" "text/plain").
  - reflexivity.
  - reflexivity.
  - discriminate.
  - reflexivity.
Defined.


(** A Get on the first executor after a client was derived from it. *)
Lemma Client_leaves_calls_unchanged_witness :
  (run 0 double.get_items
       (Client 0 double.pem
          (double.booted (double.canned (Some double.listing) None))).2).1 =
    (run 0 double.get_items
         (double.booted (double.canned (Some double.listing) None))).1 /\
  world (run 0 double.get_items
           (Client 0 double.pem
              (double.booted (double.canned (Some double.listing) None))).2).2 =
    world (run 0 double.get_items
             (double.booted (double.canned (Some double.listing) None))).2 /\
  dispatched (run 0 double.get_items
                (Client 0 double.pem
                   (double.booted (double.canned (Some double.listing) None))).2).2 =
    dispatched (run 0 double.get_items
                  (double.booted (double.canned (Some double.listing) None))).2 /\
  closed (run 0 double.get_items
            (Client 0 double.pem
               (double.booted (double.canned (Some double.listing) None))).2).2 =
    closed (run 0 double.get_items
              (double.booted (double.canned (Some double.listing) None))).2.
Proof.
  apply (Client_leaves_calls_unchanged (lib := double.lib) 0 double.pem 0
           double.get_items
           (double.booted (double.canned (Some double.listing) None))
           (@mkContextImpl double.lib
              (Some (double.canned (Some double.listing) None)))).
  reflexivity.
Defined.

(** [NewHTTP] with nil next to an existing executor. *)
Lemma NewHTTP_binds_the_dispatcher_witness :
  exists r σ',
    NewHTTP None (double.booted (double.canned (Some double.listing) None)) =
      (Return (Some r), σ') /\
    heap (double.booted (double.canned (Some double.listing) None)) !! r = None /\
    (forall a old,
       heap (double.booted (double.canned (Some double.listing) None)) !! a
         = Some old ->
       heap σ' !! a = Some old) /\
    answers r double.get_items_request σ'
      (None, Some (ErrorNew "connection refused")) 1.
Proof.
  apply (NewHTTP_binds_the_dispatcher (lib := double.lib) None
           (double.booted (double.canned (Some double.listing) None))
           double.get_items_request
           (None, Some (ErrorNew "connection refused")) 1).
  reflexivity.
Defined.

(** Two names, neither canonical, that do not collide. *)
Lemma distinct_canonical_names_single_values_witness :
  (forall h v,
     headers_of double.get_two_names !! h = Some v ->
     Header (add_headers (mkRequest "GET" "http://svc.local/items" ∅ None)
               (map_to_list double.two_names))
       !! textproto.CanonicalMIMEHeaderKey h = Some [v]) /\
  (forall k,
     (forall h, is_Some (headers_of double.get_two_names !! h) ->
                textproto.CanonicalMIMEHeaderKey h ≠ k) ->
     Header (add_headers (mkRequest "GET" "http://svc.local/items" ∅ None)
               (map_to_list double.two_names)) !! k = None).
Proof.
  apply (distinct_canonical_names_single_values (lib := double.lib)
           double.get_two_names
           (add_headers (mkRequest "GET" "http://svc.local/items" ∅ None)
              (map_to_list double.two_names))).
  - reflexivity.
  - intros h1 h2 [v1 H1] [v2 H2] Hcanon.
    unfold double.get_two_names, double.two_names in H1, H2. simpl in H1, H2.
    apply lookup_insert_Some in H1 as [[<- _]|[_ H1]];
      [|apply lookup_singleton_Some in H1 as [<- _]];
      (apply lookup_insert_Some in H2 as [[<- _]|[_ H2]];
       [|apply lookup_singleton_Some in H2 as [<- _]]);
      try reflexivity; vm_compute in Hcanon; discriminate Hcanon.
Defined.
